(** * Fitness tracker module ([homework.py]): a shallow embedding

    Python numbers ([int] and [float]) are modelled as exact rationals
    [Q]: the formulas of the module are evaluated without rounding.
    Python exceptions are modelled by the [result] type below; the
    operations that may raise ([/] and [//] by zero, calling the abstract
    calorie method, dispatching an unknown code, calling a constructor with
    the wrong number of arguments, formatting errors) return [Err]. *)

From Stdlib Require Import ZArith QArith Qround Qabs String Ascii List Bool Lia Lqa.
Import ListNotations.
Open Scope string_scope.

(** ** Exceptions and the result monad *)

Inductive exn : Type :=
| ZeroDivisionError
| NotImplementedError (msg : string)
| ValueError (msg : string)
| TypeError
| IndexError
| KeyError (key : string).

Inductive result (A : Type) : Type :=
| Ok (a : A)
| Err (e : exn).
Arguments Ok {A} a.
Arguments Err {A} e.

Definition bind {A B : Type} (m : result A) (k : A -> result B) : result B :=
  match m with
  | Ok a => k a
  | Err e => Err e
  end.

Notation "x <- m ;; k" := (bind m (fun x => k))
  (at level 61, m at next level, right associativity).

(** Python's true division [a / b]: raises [ZeroDivisionError] when
    [b == 0]. *)
Definition py_div (a b : Q) : result Q :=
  if Qeq_bool b 0 then Err ZeroDivisionError else Ok (a / b).

(** Python's floor division [a // b]: raises [ZeroDivisionError] when
    [b == 0], otherwise the floor of the quotient. *)
Definition py_floordiv (a b : Q) : result Q :=
  if Qeq_bool b 0 then Err ZeroDivisionError
  else Ok (inject_Z (Qfloor (a / b))).

(** [x ** 2] *)
Definition py_sq (x : Q) : Q := x * x.

(** ** The training hierarchy

    One constructor per class; the fields are the instance attributes set
    by [__init__] (Training: action, duration, weight; SportsWalking adds
    height; Swimming adds length_pool and count_pool). *)

Inductive Training : Type :=
| TTraining (action duration weight : Q)
| TRunning (action duration weight : Q)
| TSportsWalking (action duration weight height : Q)
| TSwimming (action duration weight length_pool count_pool : Q).

Definition action (t : Training) : Q :=
  match t with
  | TTraining a _ _ | TRunning a _ _ | TSportsWalking a _ _ _
  | TSwimming a _ _ _ _ => a
  end.

Definition duration (t : Training) : Q :=
  match t with
  | TTraining _ d _ | TRunning _ d _ | TSportsWalking _ d _ _
  | TSwimming _ d _ _ _ => d
  end.

Definition weight (t : Training) : Q :=
  match t with
  | TTraining _ _ w | TRunning _ _ w | TSportsWalking _ _ w _
  | TSwimming _ _ w _ _ => w
  end.

(** [self.__class__.__name__] *)
Definition class_name (t : Training) : string :=
  match t with
  | TTraining _ _ _ => "Training"
  | TRunning _ _ _ => "Running"
  | TSportsWalking _ _ _ _ => "SportsWalking"
  | TSwimming _ _ _ _ _ => "Swimming"
  end.

(** Class attributes.  [LEN_STEP] is overridden by [Swimming]. *)
Definition M_IN_KM : Q := 1000.
Definition M_IN_HOUR : Q := 60.

Definition LEN_STEP (t : Training) : Q :=
  match t with
  | TSwimming _ _ _ _ _ => 138 # 100   (* 1.38 *)
  | _ => 65 # 100                     (* 0.65 *)
  end.

Definition COEFF_CALORIE_RUN_1 : Q := 18.
Definition COEFF_CALORIE_RUN_2 : Q := 20.
Definition COEFF_CALORIE_WLK_1 : Q := 35 # 1000.   (* 0.035 *)
Definition COEFF_CALORIE_WLK_2 : Q := 29 # 1000.   (* 0.029 *)
Definition COEFF_CALORIE_SWM_1 : Q := 11 # 10.     (* 1.1 *)
Definition COEFF_CALORIE_SWM_2 : Q := 2.

(** [Training.get_distance] (not overridden). *)
Definition get_distance (t : Training) : result Q :=
  py_div (action t * LEN_STEP t) M_IN_KM.

(** [Training.get_mean_speed], overridden by [Swimming.get_mean_speed]. *)
Definition get_mean_speed (t : Training) : result Q :=
  match t with
  | TSwimming _ d _ length_pool count_pool =>
      x <- py_div (length_pool * count_pool) M_IN_KM ;;
      py_div x d
  | _ =>
      dist <- get_distance t ;;
      py_div dist (duration t)
  end.

Definition NOT_IMPLEMENTED_MSG : string :=
  "Method get_spent_calories() must be overridden in derived classes".

(** [get_spent_calories]: abstract in [Training] (raises
    [NotImplementedError]), overridden in the three subclasses. *)
Definition get_spent_calories (t : Training) : result Q :=
  match t with
  | TTraining _ _ _ => Err (NotImplementedError NOT_IMPLEMENTED_MSG)
  | TRunning _ d w =>
      ms <- get_mean_speed t ;;
      x <- py_div ((COEFF_CALORIE_RUN_1 * ms - COEFF_CALORIE_RUN_2) * w)
                  M_IN_KM ;;
      Ok (x * (d * M_IN_HOUR))
  | TSportsWalking _ d w h =>
      ms <- get_mean_speed t ;;
      q <- py_floordiv (py_sq ms) h ;;
      Ok ((COEFF_CALORIE_WLK_1 * w + q * COEFF_CALORIE_WLK_2 * w)
          * (d * M_IN_HOUR))
  | TSwimming _ _ w _ _ =>
      ms <- get_mean_speed t ;;
      Ok ((ms + COEFF_CALORIE_SWM_1) * COEFF_CALORIE_SWM_2 * w)
  end.

(** ** Number formatting: [format(x, '.3f')]

    The value is rounded to three decimals, ties to even, on the exact
    value; a negative value keeps its sign even when it rounds to zero. *)

(** [a < b] on rationals. *)
Definition Qltb (a b : Q) : bool := negb (Qle_bool b a).

Definition round_half_even (x : Q) : Z :=
  let n := Qfloor x in
  let r := x - inject_Z n in
  if Qltb r (1 # 2) then n
  else if Qltb (1 # 2) r then (n + 1)%Z
  else if Z.even n then n else (n + 1)%Z.

Definition digit_char (d : Z) : ascii := ascii_of_nat (48 + Z.to_nat d)%nat.

(** Decimal digits of a non-negative integer; [fuel] bounds the number
    of digits. *)
Fixpoint digits_fuel (fuel : nat) (n : Z) : string :=
  match fuel with
  | O => ""
  | S f =>
      (if (n <? 10)%Z then "" else digits_fuel f (n / 10))
        ++ String (digit_char (n mod 10)) ""
  end.

Definition z_digits (n : Z) : string :=
  digits_fuel (S (Z.to_nat (Z.log2 n))) n.

(** Three digits, zero-padded, of [0 <= k < 1000]. *)
Definition three_digits (k : Z) : string :=
  String (digit_char (k / 100))
    (String (digit_char ((k / 10) mod 10))
      (String (digit_char (k mod 10)) "")).

Definition fmt3 (q : Q) : string :=
  let m := round_half_even (Qabs q * 1000) in
  (if Qltb q 0 then "-" else "")
    ++ z_digits (m / 1000) ++ "." ++ three_digits (m mod 1000).

(** ** [str.format]

    Positional replacement fields [{n}] and [{n:spec}], automatic
    numbering [{}] and the escapes [{{] and [}}], interleaving parsing and
    formatting from left to right as CPython does.  Of the format specs
    only the empty one on [str] and [.3f] on numbers are modelled. *)

Inductive pyval : Type :=
| PyStr (s : string)
| PyNum (q : Q).

Definition format_value (v : pyval) (spec : string) : result string :=
  match v with
  | PyStr s =>
      if String.eqb spec "" then Ok s
      else Err (ValueError "Unknown format code for object of type 'str'")
  | PyNum q =>
      if String.eqb spec ".3f" then Ok (fmt3 q)
      else Err (ValueError "format spec outside the modelled subset")
  end.

Definition is_digit (c : ascii) : bool :=
  (48 <=? nat_of_ascii c)%nat && (nat_of_ascii c <=? 57)%nat.

Fixpoint all_digits (s : string) : bool :=
  match s with
  | "" => true
  | String c s' => is_digit c && all_digits s'
  end.

Fixpoint nat_of_digits_acc (acc : nat) (s : string) : nat :=
  match s with
  | "" => acc
  | String c s' => nat_of_digits_acc (10 * acc + (nat_of_ascii c - 48))%nat s'
  end.

(** Splits a field at its first [':'] into name and format spec. *)
Fixpoint split_field (s : string) : string * string :=
  match s with
  | "" => ("", "")
  | String c s' =>
      if Ascii.eqb c ":" then ("", s')
      else let (n, sp) := split_field s' in (String c n, sp)
  end.

(** Numbering mode: [None] before any field, [Some true] after an
    automatic field, [Some false] after a manual one. *)
Definition render_field (field : string) (args : list pyval)
    (mode : option bool) (next : nat)
    : result (string * option bool * nat) :=
  let (name, spec) := split_field field in
  let pick (n : nat) (mode' : option bool) (next' : nat) :=
    match nth_error args n with
    | None => Err IndexError
    | Some v => s <- format_value v spec ;; Ok (s, mode', next')
    end in
  if String.eqb name "" then
    match mode with
    | Some false =>
        Err (ValueError "cannot switch from manual field specification to automatic field numbering")
    | _ => pick next (Some true) (S next)
    end
  else if all_digits name then
    match mode with
    | Some true =>
        Err (ValueError "cannot switch from automatic field numbering to manual field specification")
    | _ => pick (nat_of_digits_acc 0 name) (Some false) next
    end
  else Err (KeyError name).

Inductive fstate : Type :=
| SLit                      (* in literal text *)
| SLBrace                   (* just read a '{' *)
| SRBrace                   (* just read a '}' in literal text *)
| SField (acc : string).    (* inside a replacement field *)

Definition prepend (pre : string) (r : result string) : result string :=
  s <- r ;; Ok (pre ++ s).

Fixpoint format_go (st : fstate) (s : string) (args : list pyval)
    (mode : option bool) (next : nat) : result string :=
  match st, s with
  | SLit, "" => Ok ""
  | SLit, String "{" s' => format_go SLBrace s' args mode next
  | SLit, String "}" s' => format_go SRBrace s' args mode next
  | SLit, String c s' => prepend (String c "") (format_go SLit s' args mode next)
  | SLBrace, "" => Err (ValueError "Single '{' encountered in format string")
  | SLBrace, String "{" s' => prepend "{" (format_go SLit s' args mode next)
  | SLBrace, String "}" s' =>
      r <- render_field "" args mode next ;;
      let '(txt, mode', next') := r in
      prepend txt (format_go SLit s' args mode' next')
  | SLBrace, String c s' => format_go (SField (String c "")) s' args mode next
  | SRBrace, String "}" s' => prepend "}" (format_go SLit s' args mode next)
  | SRBrace, _ => Err (ValueError "Single '}' encountered in format string")
  | SField _, "" => Err (ValueError "expected '}' before end of string")
  | SField acc, String "}" s' =>
      r <- render_field acc args mode next ;;
      let '(txt, mode', next') := r in
      prepend txt (format_go SLit s' args mode' next')
  | SField _, String "{" _ => Err (ValueError "unexpected '{' in field name")
  | SField acc, String c s' =>
      format_go (SField (acc ++ String c "")) s' args mode next
  end.

(** [template.format( *args)] *)
Definition py_format (template : string) (args : list pyval) : result string :=
  format_go SLit template args None 0.

(** ** [InfoMessage] *)

(** The class attribute [InfoMessage.TEXT_MESSAGE] (adjacent literals
    concatenated). *)
Definition TEXT_MESSAGE_DEFAULT : string :=
  "Тип тренировки: {0}; "
  ++ "Длительность: {1:.3f} ч.; "
  ++ "Дистанция: {2:.3f} км; "
  ++ "Ср. скорость: {3:.3f} км/ч; "
  ++ "Потрачено ккал: {4:.3f}.".

Module Info.

(** The dataclass: [TEXT_MESSAGE] is annotated, so it is a sixth field,
    with a default. *)
Record InfoMessage : Type := mkInfoMessage {
  training_type : string;
  duration : Q;
  distance : Q;
  speed : Q;
  calories : Q;
  TEXT_MESSAGE : string
}.

(** [InfoMessage(training_type, duration, distance, speed, calories)]:
    the generated [__init__] with the sixth field at its default. *)
Definition InfoMessage_new (training_type : string)
    (duration distance speed calories : Q) : InfoMessage :=
  mkInfoMessage training_type duration distance speed calories
    TEXT_MESSAGE_DEFAULT.

(** [asdict(self).values()], in field order. *)
Definition asdict_values (m : InfoMessage) : list pyval :=
  [PyStr (training_type m); PyNum (duration m); PyNum (distance m);
   PyNum (speed m); PyNum (calories m); PyStr (TEXT_MESSAGE m)].

(** [InfoMessage.get_message] *)
Definition get_message (m : InfoMessage) : result string :=
  py_format (TEXT_MESSAGE m) (asdict_values m).

End Info.

(** [Training.show_training_info]: arguments evaluated left to right. *)
Definition show_training_info (t : Training) : result Info.InfoMessage :=
  dist <- get_distance t ;;
  ms <- get_mean_speed t ;;
  cal <- get_spent_calories t ;;
  Ok (Info.InfoMessage_new (class_name t) (duration t) dist ms cal).

(** ** [read_package] *)

Inductive TrainingClass : Type :=
| CTraining | CRunning | CSportsWalking | CSwimming.

(** Calling a class with [*data]: [__init__] binds exactly as many
    positional arguments as it declares, otherwise [TypeError]. *)
Definition instantiate (c : TrainingClass) (data : list Q) : result Training :=
  match c, data with
  | CTraining, [a; d; w] => Ok (TTraining a d w)
  | CRunning, [a; d; w] => Ok (TRunning a d w)
  | CSportsWalking, [a; d; w; h] => Ok (TSportsWalking a d w h)
  | CSwimming, [a; d; w; lp; cp] => Ok (TSwimming a d w lp cp)
  | _, _ => Err TypeError
  end.

Definition supported_workout_types : list (string * TrainingClass) :=
  [("SWM", CSwimming); ("RUN", CRunning); ("WLK", CSportsWalking)].

Fixpoint lookup_type (k : string) (m : list (string * TrainingClass))
    : option TrainingClass :=
  match m with
  | [] => None
  | (k', c) :: m' => if String.eqb k k' then Some c else lookup_type k m'
  end.

Definition read_package_error_msg (workout_type : string) : string :=
  workout_type ++ " is inappropriate value "
  ++ "for training type. Check supported_workout_types "
  ++ "in read_package() function.".

Definition read_package (workout_type : string) (data : list Q)
    : result Training :=
  match lookup_type workout_type supported_workout_types with
  | Some c => instantiate c data
  | None => Err (ValueError (read_package_error_msg workout_type))
  end.

(** [main]: the line printed for one training. *)
Definition main (t : Training) : result string :=
  info <- show_training_info t ;;
  Info.get_message info.

Definition run_package (workout_type : string) (data : list Q) : result string :=
  t <- read_package workout_type data ;;
  main t.

(** The [__main__] block: the sample [packages] and the loop over them.
    Each iteration prints one line; an exception raised by [read_package]
    or [main] propagates out of the loop, the lines already printed stay
    printed.  The result is the printed lines and the exception, if any. *)
Definition packages : list (string * list Q) :=
  [("SWM", [720; 1; 80; 25; 40]);
   ("RUN", [15000; 1; 75]);
   ("WLK", [9000; 1; 75; 180])].

Fixpoint run_loop (pkgs : list (string * list Q))
    : list string * option exn :=
  match pkgs with
  | [] => ([], None)
  | (workout_type, data) :: rest =>
      match run_package workout_type data with
      | Ok line => let (lines, e) := run_loop rest in (line :: lines, e)
      | Err e => ([], Some e)
      end
  end.

(** ** Basic facts *)

Lemma py_div_ok (a b : Q) : ~ b == 0 -> py_div a b = Ok (a / b).
Proof.
  intro Hb. unfold py_div.
  destruct (Qeq_bool b 0) eqn:E; [|reflexivity].
  apply Qeq_bool_iff in E. contradiction.
Qed.

Lemma py_div_zero (a b : Q) : b == 0 -> py_div a b = Err ZeroDivisionError.
Proof.
  intro Hb. unfold py_div.
  replace (Qeq_bool b 0) with true; [reflexivity|].
  symmetry. apply Qeq_bool_iff. exact Hb.
Qed.

Lemma py_floordiv_ok (a b : Q) :
  ~ b == 0 -> py_floordiv a b = Ok (inject_Z (Qfloor (a / b))).
Proof.
  intro Hb. unfold py_floordiv.
  destruct (Qeq_bool b 0) eqn:E; [|reflexivity].
  apply Qeq_bool_iff in E. contradiction.
Qed.

Lemma py_floordiv_zero (a b : Q) :
  b == 0 -> py_floordiv a b = Err ZeroDivisionError.
Proof.
  intro Hb. unfold py_floordiv.
  replace (Qeq_bool b 0) with true; [reflexivity|].
  symmetry. apply Qeq_bool_iff. exact Hb.
Qed.

Lemma get_distance_eq (t : Training) :
  get_distance t = Ok (action t * LEN_STEP t / M_IN_KM).
Proof. reflexivity. Qed.

Lemma get_mean_speed_base (t : Training) :
  (forall a d w lp cp, t <> TSwimming a d w lp cp) ->
  get_mean_speed t = py_div (action t * LEN_STEP t / M_IN_KM) (duration t).
Proof.
  intro H. destruct t; try reflexivity.
  exfalso. eapply H. reflexivity.
Qed.

Lemma get_mean_speed_swimming (a d w lp cp : Q) :
  get_mean_speed (TSwimming a d w lp cp) = py_div (lp * cp / M_IN_KM) d.
Proof. reflexivity. Qed.

Lemma get_spent_calories_running (a d w : Q) :
  get_spent_calories (TRunning a d w) =
  (ms <- get_mean_speed (TRunning a d w) ;;
   Ok ((COEFF_CALORIE_RUN_1 * ms - COEFF_CALORIE_RUN_2) * w / M_IN_KM
       * (d * M_IN_HOUR))).
Proof. reflexivity. Qed.

Lemma get_spent_calories_walking (a d w h : Q) :
  get_spent_calories (TSportsWalking a d w h) =
  (ms <- get_mean_speed (TSportsWalking a d w h) ;;
   q <- py_floordiv (py_sq ms) h ;;
   Ok ((COEFF_CALORIE_WLK_1 * w + q * COEFF_CALORIE_WLK_2 * w)
       * (d * M_IN_HOUR))).
Proof. reflexivity. Qed.

Lemma get_spent_calories_swimming (a d w lp cp : Q) :
  get_spent_calories (TSwimming a d w lp cp) =
  (ms <- get_mean_speed (TSwimming a d w lp cp) ;;
   Ok ((ms + COEFF_CALORIE_SWM_1) * COEFF_CALORIE_SWM_2 * w)).
Proof. reflexivity. Qed.

(** ** Claims *)

(** C1 (corrected).  The calories of a [Running] training are
    [(18 * mean_speed - 20) * weight / 1000 * (duration * 60)]; on the
    sample [("RUN", [15000, 1, 75])] the distance is 9.75 km and the
    calories are 699.75 kcal (not 644.625). *)
Theorem running_calories_formula (a d w ms : Q) :
  get_mean_speed (TRunning a d w) = Ok ms ->
  (exists c, get_spent_calories (TRunning a d w) = Ok c
             /\ c == (18 * ms - 20) * w / 1000 * (d * 60))
  /\ (exists t dist c,
        read_package "RUN" [15000; 1; 75] = Ok t
        /\ get_distance t = Ok dist /\ dist == 39 # 4
        /\ get_spent_calories t = Ok c /\ c == 2799 # 4).
Proof.
  intro H. split.
  - rewrite get_spent_calories_running, H. cbn.
    eexists. split; [reflexivity|]. reflexivity.
  - do 3 eexists. split; [reflexivity|].
    split; [reflexivity|]. split; [reflexivity|].
    split; [reflexivity|]. reflexivity.
Qed.

Lemma running_calories_formula_witness :
  exists ms, get_mean_speed (TRunning 15000 1 75) = Ok ms
  /\ exists c, get_spent_calories (TRunning 15000 1 75) = Ok c
               /\ c == (18 * ms - 20) * 75 / 1000 * (1 * 60).
Proof.
  eexists. split; [reflexivity|].
  apply (running_calories_formula 15000 1 75). reflexivity.
Defined.

(** C1, the sample as the claim states it: the calories on
    [("RUN", [15000, 1, 75])] are not 644.625. *)
Lemma running_sample_not_644_625 :
  exists t c, read_package "RUN" [15000; 1; 75] = Ok t
  /\ get_spent_calories t = Ok c /\ ~ c == 5157 # 8.
Proof.
  do 2 eexists. split; [reflexivity|]. split; [reflexivity|].
  vm_compute. discriminate.
Qed.

Lemma Qeq_bool_nonzero (b : Q) : ~ b == 0 -> Qeq_bool b 0 = false.
Proof.
  intro Hb. destruct (Qeq_bool b 0) eqn:E; [|reflexivity].
  apply Qeq_bool_iff in E. contradiction.
Qed.

(** C2.  The calories of a [SportsWalking] training are
    [(0.035 * weight + (mean_speed ** 2 // height) * 0.029 * weight)
    * (duration * 60)], with a floor division; on the sample
    [("WLK", [9000, 1, 75, 180])] the floor term is 0 and the calories are
    157.5. *)
Theorem walking_calories_floor (a d w h ms : Q) :
  get_mean_speed (TSportsWalking a d w h) = Ok ms -> ~ h == 0 ->
  (exists c, get_spent_calories (TSportsWalking a d w h) = Ok c
     /\ c == ((35 # 1000) * w
              + inject_Z (Qfloor (ms * ms / h)) * (29 # 1000) * w)
            * (d * 60))
  /\ (exists t ms0 c,
        read_package "WLK" [9000; 1; 75; 180] = Ok t
        /\ get_mean_speed t = Ok ms0 /\ Qfloor (ms0 * ms0 / 180) = 0%Z
        /\ get_spent_calories t = Ok c /\ c == 315 # 2).
Proof.
  intros Hms Hh. split.
  - rewrite get_spent_calories_walking, Hms. cbn [bind].
    unfold py_sq. rewrite (py_floordiv_ok _ _ Hh). cbn [bind].
    eexists. split; [reflexivity|]. reflexivity.
  - do 3 eexists. split; [reflexivity|]. split; [reflexivity|].
    split; [reflexivity|]. split; [reflexivity|]. reflexivity.
Qed.

Lemma walking_calories_floor_witness :
  exists ms, get_mean_speed (TSportsWalking 9000 1 75 180) = Ok ms
  /\ ~ (180 : Q) == 0
  /\ exists c, get_spent_calories (TSportsWalking 9000 1 75 180) = Ok c
     /\ c == ((35 # 1000) * 75
              + inject_Z (Qfloor (ms * ms / 180)) * (29 # 1000) * 75)
            * (1 * 60).
Proof.
  eexists. split; [reflexivity|]. split; [discriminate|].
  apply (walking_calories_floor 9000 1 75 180); [reflexivity|discriminate].
Defined.

(** C3.  [Swimming] has step length 1.38, computes its mean speed from
    the pool as [length_pool * count_pool / 1000 / duration], its
    calories as [(mean_speed + 1.1) * 2 * weight] and its distance as
    [action * 1.38 / 1000]; the sample [("SWM", [720, 1, 80, 25, 40])]
    gives speed 1, calories 336 and distance [720 * 1.38 / 1000]. *)
Theorem swimming_formulas (a d w lp cp : Q) :
  ~ d == 0 ->
  LEN_STEP (TSwimming a d w lp cp) = 138 # 100
  /\ (exists ms c,
        get_mean_speed (TSwimming a d w lp cp) = Ok ms
        /\ ms == lp * cp / 1000 / d
        /\ get_spent_calories (TSwimming a d w lp cp) = Ok c
        /\ c == (ms + (11 # 10)) * 2 * w)
  /\ (exists dist,
        get_distance (TSwimming a d w lp cp) = Ok dist
        /\ dist == a * (138 # 100) / 1000)
  /\ (exists t ms c dist,
        read_package "SWM" [720; 1; 80; 25; 40] = Ok t
        /\ get_mean_speed t = Ok ms /\ ms == 1
        /\ get_spent_calories t = Ok c /\ c == 336
        /\ get_distance t = Ok dist /\ dist == 720 * (138 # 100) / 1000).
Proof.
  intro Hd. split; [reflexivity|]. split; [|split].
  - rewrite get_spent_calories_swimming, get_mean_speed_swimming.
    rewrite (py_div_ok _ _ Hd). cbn [bind].
    do 2 eexists. split; [reflexivity|]. split; [reflexivity|].
    split; [reflexivity|]. reflexivity.
  - eexists. split; [reflexivity|]. reflexivity.
  - do 4 eexists. split; [reflexivity|].
    repeat (split; [reflexivity|]). reflexivity.
Qed.

Lemma swimming_formulas_witness :
  ~ (1 : Q) == 0
  /\ LEN_STEP (TSwimming 720 1 80 25 40) = 138 # 100.
Proof.
  split; [discriminate|].
  apply (swimming_formulas 720 1 80 25 40). discriminate.
Defined.

(** C4.  [Running] and [SportsWalking] do not override the base
    computations: the distance is [action * 0.65 / 1000] and, for a
    non-zero duration, the mean speed is [distance / duration]. *)
Theorem base_distance_speed (a d w h : Q) :
  ~ d == 0 ->
  forall t, t = TRunning a d w \/ t = TSportsWalking a d w h ->
  exists dist sp,
    get_distance t = Ok dist /\ dist == a * (65 # 100) / 1000
    /\ get_mean_speed t = Ok sp /\ sp == dist / d
    /\ get_distance t = get_distance (TTraining a d w)
    /\ get_mean_speed t = get_mean_speed (TTraining a d w).
Proof.
  intros Hd t [-> | ->];
    rewrite get_mean_speed_base by discriminate;
    rewrite (get_mean_speed_base (TTraining a d w)) by discriminate;
    rewrite !get_distance_eq; cbn [action duration LEN_STEP];
    rewrite !(py_div_ok _ _ Hd);
    do 2 eexists; repeat (split; [reflexivity|]); reflexivity.
Qed.

Lemma base_distance_speed_witness :
  ~ (2 : Q) == 0
  /\ exists dist sp,
    get_distance (TRunning 15000 2 75) = Ok dist
    /\ dist == 15000 * (65 # 100) / 1000
    /\ get_mean_speed (TRunning 15000 2 75) = Ok sp /\ sp == dist / 2
    /\ get_distance (TRunning 15000 2 75) = get_distance (TTraining 15000 2 75)
    /\ get_mean_speed (TRunning 15000 2 75)
       = get_mean_speed (TTraining 15000 2 75).
Proof.
  split; [discriminate|].
  apply (base_distance_speed 15000 2 75 180); [discriminate|left; reflexivity].
Defined.

(** ** Dispatch *)

(** The dispatcher's mapping in the spec's words:
    [SWM -> Swimming], [RUN -> Running], [WLK -> SportsWalking]. *)
Definition spec_mapping (code : string) : option TrainingClass :=
  if String.eqb code "SWM" then Some CSwimming
  else if String.eqb code "RUN" then Some CRunning
  else if String.eqb code "WLK" then Some CSportsWalking
  else None.

(** Number of positional arguments of each constructor. *)
Definition arity (c : TrainingClass) : nat :=
  match c with
  | CTraining | CRunning => 3
  | CSportsWalking => 4
  | CSwimming => 5
  end.

Definition class_of (t : Training) : TrainingClass :=
  match t with
  | TTraining _ _ _ => CTraining
  | TRunning _ _ _ => CRunning
  | TSportsWalking _ _ _ _ => CSportsWalking
  | TSwimming _ _ _ _ _ => CSwimming
  end.

(** The constructor arguments, in order. *)
Definition training_args (t : Training) : list Q :=
  match t with
  | TTraining a d w | TRunning a d w => [a; d; w]
  | TSportsWalking a d w h => [a; d; w; h]
  | TSwimming a d w lp cp => [a; d; w; lp; cp]
  end.

Lemma instantiate_ok (c : TrainingClass) (data : list Q) (t : Training) :
  instantiate c data = Ok t -> class_of t = c /\ training_args t = data.
Proof.
  destruct c, data as [|a [|d [|w [|x [|y [|z l]]]]]]; cbn;
    intro H; inversion H; subst; auto.
Qed.

Lemma instantiate_cases (c : TrainingClass) (data : list Q) :
  (length data = arity c -> exists t, instantiate c data = Ok t)
  /\ (length data <> arity c -> instantiate c data = Err TypeError).
Proof.
  destruct c, data as [|a [|d [|w [|x [|y [|z l]]]]]]; cbn;
    split; intro H; try (exfalso; lia); try (exfalso; apply H; reflexivity);
    eauto.
Qed.

(** C5 (corrected).  A code of the mapping dispatches to its class: the
    result is an instance of that class built from [data] when [data] has
    the constructor's arity, and a [TypeError] otherwise; any other code
    raises a [ValueError] whose message starts with the code. *)
Theorem read_package_dispatch (code : string) (data : list Q) :
  match spec_mapping code with
  | Some c =>
      (forall t, read_package code data = Ok t ->
         class_of t = c /\ training_args t = data)
      /\ (length data = arity c -> exists t, read_package code data = Ok t)
      /\ (length data <> arity c -> read_package code data = Err TypeError)
  | None =>
      read_package code data = Err (ValueError (read_package_error_msg code))
      /\ String.prefix code (read_package_error_msg code) = true
  end.
Proof.
  unfold spec_mapping, read_package, supported_workout_types. cbn [lookup_type].
  destruct (String.eqb code "SWM"); [|destruct (String.eqb code "RUN");
    [|destruct (String.eqb code "WLK")]];
    try (split; [exact (instantiate_ok _ data)|exact (instantiate_cases _ data)]).
  split; [reflexivity|].
  unfold read_package_error_msg. clear data.
  induction code as [|ch code IH]; [reflexivity|].
  cbn. destruct (ascii_dec ch ch) as [_|n]; [exact IH|].
  exfalso. apply n. reflexivity.
Qed.

Lemma read_package_dispatch_witness :
  read_package "RUN" [15000; 1; 75] = Ok (TRunning 15000 1 75)
  /\ read_package "BIKE" [1; 2] = Err (ValueError (read_package_error_msg "BIKE")).
Proof.
  split.
  - destruct (proj1 (proj2 (read_package_dispatch "RUN" [15000; 1; 75]))
      eq_refl) as [t Ht].
    rewrite Ht.
    destruct (proj1 (read_package_dispatch "RUN" [15000; 1; 75]) t Ht)
      as [Hc Ha].
    destruct t; cbn in Hc, Ha; try discriminate.
    inversion Ha. reflexivity.
  - exact (proj1 (read_package_dispatch "BIKE" [1; 2])).
Defined.

(** C5, as stated: a code of the mapping with an argument list of the
    wrong length does not yield an instance. *)
Lemma read_package_wrong_arity :
  read_package "RUN" [1; 2] = Err TypeError.
Proof. reflexivity. Qed.

(** ** Formatting *)

(** The summary line in the spec's words. *)
Definition spec_render (kind : string) (duration distance speed calories : Q)
    : string :=
  "Тип тренировки: " ++ kind
  ++ "; Длительность: " ++ fmt3 duration
  ++ " ч.; Дистанция: " ++ fmt3 distance
  ++ " км; Ср. скорость: " ++ fmt3 speed
  ++ " км/ч; Потрачено ккал: " ++ fmt3 calories ++ ".".

(** A number rendered with an optional minus sign, at least one integer
    digit, a decimal point and exactly three fractional digits. *)
Definition three_decimals (s : string) : Prop :=
  exists sg ip fr,
    s = sg ++ ip ++ "." ++ fr
    /\ (sg = "" \/ sg = "-")
    /\ ip <> "" /\ all_digits ip = true
    /\ String.length fr = 3%nat /\ all_digits fr = true.

Lemma all_digits_app (s1 s2 : string) :
  all_digits (s1 ++ s2) = all_digits s1 && all_digits s2.
Proof.
  induction s1 as [|c s1 IH]; [reflexivity|].
  cbn. rewrite IH. apply andb_assoc.
Qed.

Lemma digit_char_is_digit (d : Z) :
  (0 <= d <= 9)%Z -> is_digit (digit_char d) = true.
Proof.
  intro Hd. unfold is_digit, digit_char.
  rewrite nat_ascii_embedding by lia.
  apply andb_true_iff. split; apply Nat.leb_le; lia.
Qed.

Lemma digits_fuel_all_digits (f : nat) (n : Z) :
  all_digits (digits_fuel f n) = true.
Proof.
  revert n. induction f as [|f IH]; intro n; [reflexivity|].
  cbn [digits_fuel]. rewrite all_digits_app. apply andb_true_iff. split.
  - destruct (n <? 10)%Z; [reflexivity|apply IH].
  - cbn [all_digits]. rewrite digit_char_is_digit; [reflexivity|].
    pose proof (Z.mod_pos_bound n 10). lia.
Qed.

Lemma digits_fuel_nonempty (f : nat) (n : Z) : digits_fuel (S f) n <> "".
Proof.
  cbn [digits_fuel].
  destruct (if (n <? 10)%Z then "" else digits_fuel f (n / 10)); discriminate.
Qed.

Lemma three_digits_shape (k : Z) :
  (0 <= k < 1000)%Z ->
  String.length (three_digits k) = 3%nat /\ all_digits (three_digits k) = true.
Proof.
  intro Hk. split; [reflexivity|].
  unfold three_digits. cbn [all_digits].
  rewrite !digit_char_is_digit; [reflexivity| | |].
  - pose proof (Z.mod_pos_bound k 10). lia.
  - pose proof (Z.mod_pos_bound (k / 10) 10). lia.
  - split; [apply Z.div_pos; lia|].
    apply Z.lt_succ_r, Z.div_lt_upper_bound; lia.
Qed.

Lemma fmt3_three_decimals (q : Q) : three_decimals (fmt3 q).
Proof.
  unfold fmt3, three_decimals.
  set (m := round_half_even (Qabs q * 1000)).
  exists (if Qltb q 0 then "" ++ "-" else ""), (z_digits (m / 1000)),
    (three_digits (m mod 1000)).
  split.
  - destruct (Qltb q 0); reflexivity.
  - split; [destruct (Qltb q 0); auto|].
    split; [apply digits_fuel_nonempty|].
    split; [apply digits_fuel_all_digits|].
    apply three_digits_shape. apply Z.mod_pos_bound. lia.
Qed.

Lemma get_message_new (kind : string) (d di sp c : Q) :
  Info.get_message (Info.InfoMessage_new kind d di sp c)
  = Ok (spec_render kind d di sp c).
Proof. reflexivity. Qed.

(** C6.  The message of every summary produced by [show_training_info]
    renders exactly as the template, each of the four numbers with
    exactly three digits after the decimal point. *)
Theorem summary_message_format (t : Training) (m : Info.InfoMessage) :
  show_training_info t = Ok m ->
  Info.get_message m
  = Ok (spec_render (Info.training_type m) (Info.duration m)
          (Info.distance m) (Info.speed m) (Info.calories m))
  /\ Forall three_decimals
       (map fmt3 [Info.duration m; Info.distance m; Info.speed m;
                  Info.calories m]).
Proof.
  unfold show_training_info.
  destruct (get_distance t) as [di|e]; [|discriminate]. cbn [bind].
  destruct (get_mean_speed t) as [sp|e]; [|discriminate]. cbn [bind].
  destruct (get_spent_calories t) as [c|e]; [|discriminate]. cbn [bind].
  intro H. inversion H; subst m. split.
  - apply get_message_new.
  - repeat constructor; apply fmt3_three_decimals.
Qed.

Lemma summary_message_format_witness :
  show_training_info (TRunning 15000 1 75)
  = Ok (Info.InfoMessage_new "Running" 1 (15000 * (65 # 100) / 1000)
          (15000 * (65 # 100) / 1000 / 1)
          ((18 * (15000 * (65 # 100) / 1000 / 1) - 20) * 75 / 1000 * (1 * 60)))
  /\ Info.get_message
       (Info.InfoMessage_new "Running" 1 (15000 * (65 # 100) / 1000)
          (15000 * (65 # 100) / 1000 / 1)
          ((18 * (15000 * (65 # 100) / 1000 / 1) - 20) * 75 / 1000 * (1 * 60)))
     = Ok (spec_render "Running" 1 (15000 * (65 # 100) / 1000)
          (15000 * (65 # 100) / 1000 / 1)
          ((18 * (15000 * (65 # 100) / 1000 / 1) - 20) * 75 / 1000 * (1 * 60))).
Proof.
  assert (H : show_training_info (TRunning 15000 1 75)
    = Ok (Info.InfoMessage_new "Running" 1 (15000 * (65 # 100) / 1000)
          (15000 * (65 # 100) / 1000 / 1)
          ((18 * (15000 * (65 # 100) / 1000 / 1) - 20) * 75 / 1000 * (1 * 60))))
    by reflexivity.
  split; [exact H|].
  exact (proj1 (summary_message_format _ _ H)).
Defined.

(** C10.  The sixth value of [asdict(self)] (the [TEXT_MESSAGE] field) is
    ignored: the template only uses positions 0 to 4, so [get_message]
    equals the template applied to the five data fields, whatever further
    arguments follow them. *)
Theorem get_message_five_fields (kind : string) (d di sp c : Q) :
  Info.get_message (Info.InfoMessage_new kind d di sp c)
  = py_format TEXT_MESSAGE_DEFAULT [PyStr kind; PyNum d; PyNum di; PyNum sp; PyNum c]
  /\ (forall extra,
        py_format TEXT_MESSAGE_DEFAULT
          ([PyStr kind; PyNum d; PyNum di; PyNum sp; PyNum c] ++ extra)
        = py_format TEXT_MESSAGE_DEFAULT
            [PyStr kind; PyNum d; PyNum di; PyNum sp; PyNum c]).
Proof. split; [|intro extra]; reflexivity. Qed.

(** ** Errors of the computations *)

(** Destructs every [Qeq_bool] test left in the goal. *)
Ltac split_zero_tests :=
  repeat match goal with
         | |- context [Qeq_bool ?x ?y] => destruct (Qeq_bool x y)
         end.

(** The mean speed can only fail with a division by zero. *)
Lemma get_mean_speed_err (t : Training) (e : exn) :
  get_mean_speed t = Err e -> e = ZeroDivisionError.
Proof.
  destruct t; unfold get_mean_speed, get_distance, py_div, bind;
    split_zero_tests; cbn; congruence.
Qed.

(** The calories of the three subclasses can only fail with a division
    by zero. *)
Lemma get_spent_calories_subclass_err (t : Training) (e : exn) :
  class_of t <> CTraining ->
  get_spent_calories t = Err e -> e = ZeroDivisionError.
Proof.
  intro Hc. destruct t; [exfalso; apply Hc; reflexivity| | |];
    unfold get_spent_calories, get_mean_speed, get_distance, py_div,
      py_floordiv, bind;
    split_zero_tests; cbn; congruence.
Qed.

Lemma read_package_class (code : string) (data : list Q) (t : Training) :
  read_package code data = Ok t ->
  class_of t <> CTraining /\ training_args t = data.
Proof.
  unfold read_package, supported_workout_types. cbn [lookup_type].
  destruct (String.eqb code "SWM"); [|destruct (String.eqb code "RUN");
    [|destruct (String.eqb code "WLK")]]; try discriminate;
    intro H; apply instantiate_ok in H; destruct H as [-> ->];
    split; congruence.
Qed.

(** C7.  Calling [get_spent_calories] on a base [Training] raises
    [NotImplementedError]; on an instance returned by [read_package] it
    never does. *)
Theorem base_calories_not_implemented :
  (forall a d w, get_spent_calories (TTraining a d w)
                 = Err (NotImplementedError NOT_IMPLEMENTED_MSG))
  /\ (forall code data t, read_package code data = Ok t ->
        forall msg, get_spent_calories t <> Err (NotImplementedError msg)).
Proof.
  split; [reflexivity|].
  intros code data t Ht msg H.
  apply read_package_class in Ht. destruct Ht as [Hc _].
  apply (get_spent_calories_subclass_err _ _ Hc) in H. discriminate.
Qed.

Lemma base_calories_not_implemented_witness :
  read_package "SWM" [720; 1; 80; 25; 40] = Ok (TSwimming 720 1 80 25 40)
  /\ get_spent_calories (TSwimming 720 1 80 25 40)
     <> Err (NotImplementedError NOT_IMPLEMENTED_MSG).
Proof.
  assert (H : read_package "SWM" [720; 1; 80; 25; 40]
              = Ok (TSwimming 720 1 80 25 40)) by reflexivity.
  split; [exact H|].
  exact (proj2 base_calories_not_implemented _ _ _ H NOT_IMPLEMENTED_MSG).
Defined.

(** C8 (corrected).  The distance of an instance returned by
    [read_package] is non-negative exactly when its action count (the
    first argument) is. *)
Theorem read_package_distance_sign (code : string) (data : list Q)
    (t : Training) :
  read_package code data = Ok t ->
  exists dist, get_distance t = Ok dist
  /\ (0 <= dist <-> 0 <= hd 0 data).
Proof.
  intro Ht. apply read_package_class in Ht. destruct Ht as [_ <-].
  assert (Ha : hd 0 (training_args t) = action t) by (destruct t; reflexivity).
  rewrite Ha, get_distance_eq. eexists. split; [reflexivity|].
  assert (Hk : 0 < LEN_STEP t / M_IN_KM) by (destruct t; reflexivity).
  assert (E : action t * LEN_STEP t / M_IN_KM
              == action t * (LEN_STEP t / M_IN_KM))
    by (unfold Qdiv; ring).
  rewrite E, <- (Qmult_le_r 0 (action t) _ Hk), Qmult_0_l.
  reflexivity.
Qed.

Lemma read_package_distance_sign_witness :
  read_package "RUN" [15000; 1; 75] = Ok (TRunning 15000 1 75)
  /\ exists dist, get_distance (TRunning 15000 1 75) = Ok dist
     /\ (0 <= dist <-> 0 <= 15000).
Proof.
  assert (H : read_package "RUN" [15000; 1; 75] = Ok (TRunning 15000 1 75))
    by reflexivity.
  split; [exact H|].
  exact (read_package_distance_sign _ _ _ H).
Defined.

(** C8, as stated: a negative action count gives a negative distance. *)
Lemma read_package_negative_distance :
  exists t dist, read_package "RUN" [-1; 1; 75] = Ok t
  /\ get_distance t = Ok dist /\ dist < 0.
Proof.
  do 2 eexists. split; [reflexivity|]. split; [reflexivity|].
  reflexivity.
Qed.

(** C9.  With a zero duration, the mean speed, the calories and the
    summary of the three subclasses raise [ZeroDivisionError]; with a zero
    height, so do the calories of [SportsWalking]. *)
Theorem zero_divisors_raise (a d w h lp cp : Q) :
  (d == 0 ->
   Forall (fun t => get_mean_speed t = Err ZeroDivisionError
                    /\ get_spent_calories t = Err ZeroDivisionError
                    /\ show_training_info t = Err ZeroDivisionError)
     [TRunning a d w; TSportsWalking a d w h; TSwimming a d w lp cp])
  /\ (h == 0 ->
      get_spent_calories (TSportsWalking a d w h) = Err ZeroDivisionError).
Proof.
  split.
  - intro Hd.
    assert (Hr : get_mean_speed (TRunning a d w) = Err ZeroDivisionError)
      by (rewrite get_mean_speed_base by discriminate; apply py_div_zero, Hd).
    assert (Hw : get_mean_speed (TSportsWalking a d w h) = Err ZeroDivisionError)
      by (rewrite get_mean_speed_base by discriminate; apply py_div_zero, Hd).
    assert (Hs : get_mean_speed (TSwimming a d w lp cp) = Err ZeroDivisionError)
      by (rewrite get_mean_speed_swimming; apply py_div_zero, Hd).
    repeat constructor; unfold show_training_info;
      rewrite ?get_distance_eq; cbn [bind];
      rewrite ?get_spent_calories_running, ?get_spent_calories_walking,
        ?get_spent_calories_swimming;
      first [exact Hr | exact Hw | exact Hs
            | rewrite Hr; reflexivity | rewrite Hw; reflexivity
            | rewrite Hs; reflexivity].
  - intro Hh. rewrite get_spent_calories_walking.
    destruct (get_mean_speed (TSportsWalking a d w h)) as [ms|e] eqn:E.
    + cbn [bind]. rewrite (py_floordiv_zero _ _ Hh). reflexivity.
    + apply get_mean_speed_err in E. subst e. reflexivity.
Qed.

Lemma zero_divisors_raise_witness :
  (0 : Q) == 0
  /\ Forall (fun t => get_mean_speed t = Err ZeroDivisionError
                      /\ get_spent_calories t = Err ZeroDivisionError
                      /\ show_training_info t = Err ZeroDivisionError)
       [TRunning 15000 0 75; TSportsWalking 15000 0 75 180;
        TSwimming 15000 0 75 25 40]
  /\ get_spent_calories (TSportsWalking 9000 1 75 0) = Err ZeroDivisionError.
Proof.
  split; [reflexivity|]. split.
  - apply (proj1 (zero_divisors_raise 15000 0 75 180 25 40)). reflexivity.
  - apply (proj2 (zero_divisors_raise 9000 1 75 0 25 40)). reflexivity.
Defined.

(** ** The driver loop *)

(** The loop over a concatenation runs the first part and, if it raised
    nothing, goes on with the second. *)
Theorem run_loop_app (p1 p2 : list (string * list Q)) :
  run_loop (p1 ++ p2) =
  match run_loop p1 with
  | (lines1, None) => let (lines2, e) := run_loop p2 in ((lines1 ++ lines2)%list, e)
  | (lines1, Some e) => (lines1, Some e)
  end.
Proof.
  induction p1 as [|[wt data] p1 IH]; cbn.
  - destruct (run_loop p2); reflexivity.
  - destruct (run_package wt data) as [line|e]; [|reflexivity].
    rewrite IH. destruct (run_loop p1) as [l1 [e1|]]; [reflexivity|].
    destruct (run_loop p2); reflexivity.
Qed.

(** The loop completes exactly when every record yields a line, and it
    then prints one line per record, in order. *)
Theorem run_loop_complete (pkgs : list (string * list Q)) (lines : list string) :
  run_loop pkgs = (lines, None) <->
  Forall2 (fun pk line => run_package (fst pk) (snd pk) = Ok line) pkgs lines.
Proof.
  revert lines. induction pkgs as [|[wt data] pkgs IH]; intro lines; cbn.
  - split; intro H.
    + inversion H. constructor.
    + inversion H. reflexivity.
  - destruct (run_package wt data) as [line|e] eqn:E.
    + destruct (run_loop pkgs) as [ls e'] eqn:L. split; intro H.
      * inversion H; subst. constructor; [exact E|]. apply IH. reflexivity.
      * inversion H as [|x y xs ys Hx Hxs]; subst. cbn in Hx.
        rewrite E in Hx. inversion Hx; subst.
        apply IH in Hxs. inversion Hxs; subst. reflexivity.
    + split; intro H; [discriminate|].
      inversion H as [|x y xs ys Hx Hxs]; subst. cbn in Hx. congruence.
Qed.

(** When the loop stops on an exception, that exception comes from the
    first record that fails, and the printed lines are those of the
    records before it. *)
Theorem run_loop_stops (pkgs : list (string * list Q)) (lines : list string)
    (e : exn) :
  run_loop pkgs = (lines, Some e) ->
  exists p1 wt data p2,
    pkgs = (p1 ++ (wt, data) :: p2)%list
    /\ Forall2 (fun pk line => run_package (fst pk) (snd pk) = Ok line) p1 lines
    /\ run_package wt data = Err e.
Proof.
  revert lines. induction pkgs as [|[wt data] pkgs IH]; intro lines; cbn.
  - discriminate.
  - destruct (run_package wt data) as [line|e'] eqn:E.
    + destruct (run_loop pkgs) as [ls e''] eqn:L. intro H.
      inversion H; subst.
      destruct (IH ls eq_refl) as (p1 & wt' & data' & p2 & -> & HF & He).
      exists ((wt, data) :: p1), wt', data', p2.
      split; [reflexivity|]. split; [|exact He].
      constructor; [exact E|exact HF].
    + intro H. inversion H; subst.
      exists [], wt, data, pkgs. split; [reflexivity|].
      split; [constructor|exact E].
Qed.

Lemma run_loop_stops_witness :
  run_loop [("RUN", [15000; 1; 75]); ("BIKE", [1; 1; 1])]
  = ([spec_render "Running" 1 (15000 * (65 # 100) / 1000)
        (15000 * (65 # 100) / 1000 / 1)
        ((18 * (15000 * (65 # 100) / 1000 / 1) - 20) * 75 / 1000 * (1 * 60))],
     Some (ValueError (read_package_error_msg "BIKE")))
  /\ exists p1 wt data p2,
    [("RUN", [15000; 1; 75]); ("BIKE", [1; 1; 1])] = (p1 ++ (wt, data) :: p2)%list
    /\ Forall2 (fun pk line => run_package (fst pk) (snd pk) = Ok line) p1
         [spec_render "Running" 1 (15000 * (65 # 100) / 1000)
            (15000 * (65 # 100) / 1000 / 1)
            ((18 * (15000 * (65 # 100) / 1000 / 1) - 20) * 75 / 1000 * (1 * 60))]
    /\ run_package wt data = Err (ValueError (read_package_error_msg "BIKE")).
Proof.
  assert (H : run_loop [("RUN", [15000; 1; 75]); ("BIKE", [1; 1; 1])]
    = ([spec_render "Running" 1 (15000 * (65 # 100) / 1000)
          (15000 * (65 # 100) / 1000 / 1)
          ((18 * (15000 * (65 # 100) / 1000 / 1) - 20) * 75 / 1000 * (1 * 60))],
       Some (ValueError (read_package_error_msg "BIKE")))) by reflexivity.
  split; [exact H|]. exact (run_loop_stops _ _ _ H).
Defined.

Lemma run_loop_complete_witness :
  run_loop [("RUN", [15000; 1; 75])]
  = ([spec_render "Running" 1 (15000 * (65 # 100) / 1000)
        (15000 * (65 # 100) / 1000 / 1)
        ((18 * (15000 * (65 # 100) / 1000 / 1) - 20) * 75 / 1000 * (1 * 60))],
     None)
  /\ Forall2 (fun pk line => run_package (fst pk) (snd pk) = Ok line)
       [("RUN", [15000; 1; 75])]
       [spec_render "Running" 1 (15000 * (65 # 100) / 1000)
          (15000 * (65 # 100) / 1000 / 1)
          ((18 * (15000 * (65 # 100) / 1000 / 1) - 20) * 75 / 1000 * (1 * 60))].
Proof.
  assert (H : run_loop [("RUN", [15000; 1; 75])]
    = ([spec_render "Running" 1 (15000 * (65 # 100) / 1000)
          (15000 * (65 # 100) / 1000 / 1)
          ((18 * (15000 * (65 # 100) / 1000 / 1) - 20) * 75 / 1000 * (1 * 60))],
       None)) by reflexivity.
  split; [exact H|]. exact (proj1 (run_loop_complete _ _) H).
Defined.

(** ** [main] on a single training *)

Lemma main_show_ok (t : Training) (m : Info.InfoMessage) :
  show_training_info t = Ok m ->
  main t = Ok (spec_render (Info.training_type m) (Info.duration m)
                 (Info.distance m) (Info.speed m) (Info.calories m)).
Proof.
  unfold main. intro H. rewrite H. cbn [bind].
  unfold show_training_info in H.
  destruct (get_distance t); [|discriminate]. cbn [bind] in H.
  destruct (get_mean_speed t); [|discriminate]. cbn [bind] in H.
  destruct (get_spent_calories t); [|discriminate]. cbn [bind] in H.
  inversion H; subst. apply get_message_new.
Qed.

(** For an instance of one of the three subclasses, [main] prints its line
    exactly when the duration is non-zero (and, for [SportsWalking], the
    height too); otherwise it raises [ZeroDivisionError]. *)
Theorem main_outcome (t : Training) :
  class_of t <> CTraining ->
  let ok := ~ duration t == 0
            /\ forall a d w h, t = TSportsWalking a d w h -> ~ h == 0 in
  (ok -> exists line, main t = Ok line)
  /\ (~ ok -> main t = Err ZeroDivisionError).
Proof.
  intros Hc ok.
  assert (Hdist : get_distance t = Ok (action t * LEN_STEP t / M_IN_KM))
    by apply get_distance_eq.
  destruct (Qeq_bool (duration t) 0) eqn:Ed.
  - apply Qeq_bool_iff in Ed.
    assert (Hms : get_mean_speed t = Err ZeroDivisionError).
    { destruct t; try (exfalso; apply Hc; reflexivity);
        [rewrite get_mean_speed_base by discriminate
        |rewrite get_mean_speed_base by discriminate
        |rewrite get_mean_speed_swimming];
        apply py_div_zero; exact Ed. }
    split.
    + intros [Hd _]. contradiction.
    + intros _. unfold main, show_training_info.
      rewrite Hdist. cbn [bind]. rewrite Hms. reflexivity.
  - assert (Hd : ~ duration t == 0)
      by (intro E; apply Qeq_bool_iff in E; congruence).
    assert (Hms : exists ms, get_mean_speed t = Ok ms).
    { destruct t; try (exfalso; apply Hc; reflexivity);
        [rewrite get_mean_speed_base by discriminate
        |rewrite get_mean_speed_base by discriminate
        |rewrite get_mean_speed_swimming];
        rewrite (py_div_ok _ _ Hd); eexists; reflexivity. }
    destruct Hms as [ms Hms].
    destruct t as [a d w|a d w|a d w h|a d w lp cp];
      [exfalso; apply Hc; reflexivity| | |].
    + split; [intros _|intros Hn; exfalso; apply Hn; split;
        [exact Hd|intros ? ? ? ? E; discriminate]].
      eexists. apply main_show_ok. unfold show_training_info.
      rewrite Hdist. cbn [bind]. rewrite Hms. cbn [bind].
      rewrite get_spent_calories_running, Hms. reflexivity.
    + destruct (Qeq_bool h 0) eqn:Eh.
      * apply Qeq_bool_iff in Eh. split.
        -- intros [_ Hh]. exfalso. exact (Hh a d w h eq_refl Eh).
        -- intros _. unfold main, show_training_info.
           rewrite Hdist. cbn [bind]. rewrite Hms. cbn [bind].
           rewrite get_spent_calories_walking, Hms. cbn [bind].
           rewrite (py_floordiv_zero _ _ Eh). reflexivity.
      * assert (Hh : ~ h == 0)
          by (intro E; apply Qeq_bool_iff in E; congruence).
        split; [intros _|intros Hn; exfalso; apply Hn; split;
          [exact Hd|intros ? ? ? ? E; inversion E; subst; exact Hh]].
        eexists. apply main_show_ok. unfold show_training_info.
        rewrite Hdist. cbn [bind]. rewrite Hms. cbn [bind].
        rewrite get_spent_calories_walking, Hms. cbn [bind].
        rewrite (py_floordiv_ok _ _ Hh). reflexivity.
    + split; [intros _|intros Hn; exfalso; apply Hn; split;
        [exact Hd|intros ? ? ? ? E; discriminate]].
      eexists. apply main_show_ok. unfold show_training_info.
      rewrite Hdist. cbn [bind]. rewrite Hms. cbn [bind].
      rewrite get_spent_calories_swimming, Hms. reflexivity.
Qed.

Lemma main_outcome_witness :
  class_of (TSportsWalking 9000 1 75 0) <> CTraining
  /\ main (TSportsWalking 9000 1 75 0) = Err ZeroDivisionError.
Proof.
  split; [discriminate|].
  apply (proj2 (main_outcome (TSportsWalking 9000 1 75 0) ltac:(discriminate))).
  intros [_ Hh]. exact (Hh 9000 1 75 0 eq_refl eq_refl).
Defined.

(** On a base [Training] instance, [show_training_info] evaluates the
    mean speed before the calories: a zero duration raises
    [ZeroDivisionError], any other duration [NotImplementedError]. *)
Theorem base_show_training_info (a d w : Q) :
  (d == 0 -> show_training_info (TTraining a d w) = Err ZeroDivisionError)
  /\ (~ d == 0 -> show_training_info (TTraining a d w)
                  = Err (NotImplementedError NOT_IMPLEMENTED_MSG)).
Proof.
  unfold show_training_info. rewrite get_distance_eq. cbn [bind].
  rewrite get_mean_speed_base by discriminate. cbn [action duration].
  split; intro Hd.
  - rewrite (py_div_zero _ _ Hd). reflexivity.
  - rewrite (py_div_ok _ _ Hd). reflexivity.
Qed.

Lemma base_show_training_info_witness :
  ~ (1 : Q) == 0
  /\ show_training_info (TTraining 15000 1 75)
     = Err (NotImplementedError NOT_IMPLEMENTED_MSG).
Proof.
  split; [discriminate|].
  apply (proj2 (base_show_training_info 15000 1 75)). discriminate.
Defined.

(** ** Shape of the calorie formulas *)

(** [Running] does not clamp its result: for a positive weight and
    duration the calories are negative exactly when
    [18 * mean_speed < 20]. *)
Theorem running_calories_sign (a d w ms : Q) :
  get_mean_speed (TRunning a d w) = Ok ms -> 0 < w -> 0 < d ->
  exists c, get_spent_calories (TRunning a d w) = Ok c
  /\ (c < 0 <-> 18 * ms < 20).
Proof.
  intros Hms Hw Hd.
  rewrite get_spent_calories_running, Hms. cbn [bind].
  eexists. split; [reflexivity|].
  set (k := w / M_IN_KM * (d * M_IN_HOUR)).
  assert (Hk : 0 < k).
  { unfold k, M_IN_KM, M_IN_HOUR.
    apply Qmult_lt_0_compat; [|apply Qmult_lt_0_compat; [exact Hd|reflexivity]].
    apply Qlt_shift_div_l; [reflexivity|]. rewrite Qmult_0_l. exact Hw. }
  assert (E : (COEFF_CALORIE_RUN_1 * ms - COEFF_CALORIE_RUN_2) * w / M_IN_KM
                * (d * M_IN_HOUR)
              == (18 * ms - 20) * k)
    by (unfold k, COEFF_CALORIE_RUN_1, COEFF_CALORIE_RUN_2, Qdiv; ring).
  rewrite E. split; intro H.
  - assert (H' : (18 * ms - 20) * k < 0 * k) by (rewrite Qmult_0_l; exact H).
    apply Qmult_lt_r in H'; [lra|exact Hk].
  - rewrite <- (Qmult_0_l k). apply Qmult_lt_r; [exact Hk|lra].
Qed.

Lemma running_calories_sign_witness :
  get_mean_speed (TRunning 1000 1 75) = Ok (1000 * (65 # 100) / 1000 / 1)
  /\ exists c, get_spent_calories (TRunning 1000 1 75) = Ok c
     /\ (c < 0 <-> 18 * (1000 * (65 # 100) / 1000 / 1) < 20).
Proof.
  assert (H : get_mean_speed (TRunning 1000 1 75)
              = Ok (1000 * (65 # 100) / 1000 / 1)) by reflexivity.
  split; [exact H|].
  apply (running_calories_sign 1000 1 75 _ H); reflexivity.
Defined.

Lemma Qfloor_zero (x : Q) : 0 <= x -> x < 1 -> Qfloor x = 0%Z.
Proof.
  intros H0 H1.
  pose proof (Qfloor_resp_le 0 x H0) as Hl. change (Qfloor 0) with 0%Z in Hl.
  pose proof (Qfloor_le x) as Hu.
  assert (Hu' : inject_Z (Qfloor x) < inject_Z 1) by (eapply Qle_lt_trans; eauto).
  rewrite <- Zlt_Qlt in Hu'. lia.
Qed.

(** [SportsWalking] with a positive height: the floor term is never
    negative, so for non-negative weight and duration the calories are at
    least [0.035 * weight * (duration * 60)]; while [mean_speed ** 2] stays
    below the height, the calories equal that term and do not depend on
    the speed. *)
Theorem walking_calories_base_term (a d w h ms : Q) :
  get_mean_speed (TSportsWalking a d w h) = Ok ms ->
  0 < h -> 0 <= w -> 0 <= d ->
  exists c, get_spent_calories (TSportsWalking a d w h) = Ok c
  /\ (35 # 1000) * w * (d * 60) <= c
  /\ (ms * ms < h -> c == (35 # 1000) * w * (d * 60)).
Proof.
  intros Hms Hh Hw Hd.
  assert (Hh0 : ~ h == 0) by (intro E; rewrite E in Hh; discriminate).
  rewrite get_spent_calories_walking, Hms. cbn [bind]. unfold py_sq.
  rewrite (py_floordiv_ok _ _ Hh0). cbn [bind].
  eexists. split; [reflexivity|].
  assert (Hq0 : 0 <= ms * ms / h).
  { apply Qle_shift_div_l; [exact Hh|]. rewrite Qmult_0_l.
    destruct (Qlt_le_dec ms 0) as [Hn|Hp].
    - setoid_replace (ms * ms) with ((- ms) * (- ms)) by ring.
      apply Qmult_le_0_compat; lra.
    - apply Qmult_le_0_compat; exact Hp. }
  assert (Hf : 0 <= inject_Z (Qfloor (ms * ms / h))).
  { pose proof (Qfloor_resp_le 0 _ Hq0) as Hl. change (Qfloor 0) with 0%Z in Hl.
    change 0 with (inject_Z 0). rewrite <- Zle_Qle. exact Hl. }
  unfold COEFF_CALORIE_WLK_1, COEFF_CALORIE_WLK_2, M_IN_HOUR. split.
  - setoid_replace (((35 # 1000) * w + inject_Z (Qfloor (ms * ms / h))
                      * (29 # 1000) * w) * (d * 60))
      with ((35 # 1000) * w * (d * 60)
            + inject_Z (Qfloor (ms * ms / h)) * (w * d) * ((29 # 1000) * 60))
      by ring.
    assert (0 <= inject_Z (Qfloor (ms * ms / h)) * (w * d)).
    { apply Qmult_le_0_compat; [exact Hf|apply Qmult_le_0_compat; assumption]. }
    assert (0 <= inject_Z (Qfloor (ms * ms / h)) * (w * d) * ((29 # 1000) * 60)).
    { apply Qmult_le_0_compat; [assumption|discriminate]. }
    lra.
  - intro Hlt.
    rewrite (Qfloor_zero (ms * ms / h) Hq0).
    + ring.
    + apply Qlt_shift_div_r; [exact Hh|]. rewrite Qmult_1_l. exact Hlt.
Qed.

Lemma walking_calories_base_term_witness :
  get_mean_speed (TSportsWalking 9000 1 75 180) = Ok (9000 * (65 # 100) / 1000 / 1)
  /\ exists c, get_spent_calories (TSportsWalking 9000 1 75 180) = Ok c
     /\ (35 # 1000) * 75 * (1 * 60) <= c
     /\ ((9000 * (65 # 100) / 1000 / 1) * (9000 * (65 # 100) / 1000 / 1) < 180
         -> c == (35 # 1000) * 75 * (1 * 60)).
Proof.
  assert (H : get_mean_speed (TSportsWalking 9000 1 75 180)
              = Ok (9000 * (65 # 100) / 1000 / 1)) by reflexivity.
  split; [exact H|].
  apply (walking_calories_base_term 9000 1 75 180 _ H); reflexivity || discriminate.
Defined.

(** ** The script's output *)

(** Run as a script, the module prints these three lines and raises
    nothing. *)
Theorem script_output :
  run_loop packages =
  (["Тип тренировки: Swimming; Длительность: 1.000 ч.; Дистанция: 0.994 км; Ср. скорость: 1.000 км/ч; Потрачено ккал: 336.000.";
    "Тип тренировки: Running; Длительность: 1.000 ч.; Дистанция: 9.750 км; Ср. скорость: 9.750 км/ч; Потрачено ккал: 699.750.";
    "Тип тренировки: SportsWalking; Длительность: 1.000 ч.; Дистанция: 5.850 км; Ср. скорость: 5.850 км/ч; Потрачено ккал: 157.500."],
   None).
Proof. vm_compute. reflexivity. Qed.

(** ** Accuracy of the printed numbers *)

(** Reading a string of decimal digits back as an integer. *)
Fixpoint digits_value_acc (acc : Z) (s : string) : Z :=
  match s with
  | "" => acc
  | String c s' =>
      digits_value_acc (10 * acc + (Z.of_nat (nat_of_ascii c) - 48)) s'
  end.

Definition digits_value (s : string) : Z := digits_value_acc 0 s.

Lemma digits_value_acc_snoc (acc : Z) (s : string) (c : ascii) :
  digits_value_acc acc (s ++ String c "") =
  (10 * digits_value_acc acc s + (Z.of_nat (nat_of_ascii c) - 48))%Z.
Proof.
  revert acc. induction s as [|c0 s IH]; intro acc; [reflexivity|].
  cbn [append digits_value_acc]. apply IH.
Qed.

Lemma digit_char_value (d : Z) :
  (0 <= d <= 9)%Z -> (Z.of_nat (nat_of_ascii (digit_char d)) - 48)%Z = d.
Proof.
  intro Hd. unfold digit_char.
  rewrite nat_ascii_embedding by lia. lia.
Qed.

Lemma digits_fuel_value (f : nat) (n : Z) :
  (0 <= n < 10 ^ Z.of_nat f)%Z -> digits_value (digits_fuel f n) = n.
Proof.
  unfold digits_value. revert n. induction f as [|f IH]; intros n Hn.
  - cbn in Hn. cbn. lia.
  - cbn [digits_fuel]. rewrite digits_value_acc_snoc.
    rewrite digit_char_value by (pose proof (Z.mod_pos_bound n 10); lia).
    rewrite Nat2Z.inj_succ, Z.pow_succ_r in Hn by lia.
    destruct (n <? 10)%Z eqn:E.
    + apply Z.ltb_lt in E. cbn. rewrite Z.mod_small by lia. lia.
    + apply Z.ltb_ge in E. rewrite IH.
      * pose proof (Z.div_mod n 10). lia.
      * split; [apply Z.div_pos; lia|].
        apply Z.div_lt_upper_bound; lia.
Qed.

Lemma z_digits_value (n : Z) : (0 <= n)%Z -> digits_value (z_digits n) = n.
Proof.
  intro Hn. unfold z_digits. apply digits_fuel_value. split; [exact Hn|].
  rewrite Nat2Z.inj_succ, Z2Nat.id by apply Z.log2_nonneg.
  destruct (Z.eq_dec n 0) as [->|Hn0]; [reflexivity|].
  apply Z.lt_le_trans with (2 ^ Z.succ (Z.log2 n))%Z.
  - apply Z.log2_spec. lia.
  - apply Z.pow_le_mono_l. lia.
Qed.

Lemma three_digits_value (k : Z) :
  (0 <= k < 1000)%Z -> digits_value (three_digits k) = k.
Proof.
  intro Hk. unfold digits_value, three_digits. cbn [digits_value_acc].
  pose proof (Z.mod_pos_bound k 10).
  pose proof (Z.mod_pos_bound (k / 10) 10).
  assert (0 <= k / 100 <= 9)%Z.
  { split; [apply Z.div_pos; lia|].
    apply Z.lt_succ_r, Z.div_lt_upper_bound; lia. }
  rewrite !digit_char_value by lia.
  Z.div_mod_to_equations. lia.
Qed.

Lemma Qltb_iff (a b : Q) : Qltb a b = true <-> a < b.
Proof.
  unfold Qltb. rewrite negb_true_iff. split; intro H.
  - apply Qnot_le_lt. intro H'. apply Qle_bool_iff in H'. congruence.
  - destruct (Qle_bool b a) eqn:E; [|reflexivity].
    apply Qle_bool_iff in E. exfalso. apply (Qlt_not_le a b H E).
Qed.

Lemma round_half_even_close (x : Q) :
  Qabs (x - inject_Z (round_half_even x)) <= 1 # 2.
Proof.
  unfold round_half_even.
  pose proof (Qfloor_le x) as Hl. pose proof (Qlt_floor x) as Hu.
  rewrite inject_Z_plus in Hu. change (inject_Z 1) with 1 in Hu.
  apply Qabs_Qle_condition.
  destruct (Qltb (x - inject_Z (Qfloor x)) (1 # 2)) eqn:E1.
  - apply Qltb_iff in E1. split; lra.
  - rewrite <- Bool.not_true_iff_false, Qltb_iff in E1.
    apply Qnot_lt_le in E1.
    destruct (Qltb (1 # 2) (x - inject_Z (Qfloor x))) eqn:E2.
    + rewrite inject_Z_plus. change (inject_Z 1) with 1. split; lra.
    + rewrite <- Bool.not_true_iff_false, Qltb_iff in E2.
      apply Qnot_lt_le in E2.
      destruct (Z.even (Qfloor x)); rewrite ?inject_Z_plus;
        change (inject_Z 1) with 1; split; lra.
Qed.

